(** * setup_vm.py: a shallow embedding and its verified properties

    The script provisions a machine by a fixed checklist of external
    commands and file operations.  Its pure part (command and banner
    formatting, the [Repo] descriptor) is embedded as functions on
    [string] and [list string]; its effectful part (printing,
    [subprocess.run], [shutil], [os.remove], reading the YAML file) as
    programs of a small free monad whose calls are answered by an
    executor. *)

From Stdlib Require Import String Ascii List Bool ZArith Arith Lia.
Import ListNotations.

Local Open Scope list_scope.
Local Open Scope string_scope.

Set Implicit Arguments.

(** ** Python string built-ins used by the script *)

Module PyStr.

(** [n * c] for a one-character string [c]. *)
Fixpoint replicate (n : nat) (c : ascii) : string :=
  match n with
  | O => EmptyString
  | S n' => String c (replicate n' c)
  end.

(** [s.center(width)]: CPython pads with [left = marg/2 + (marg & width & 1)]
    spaces before and [marg - left] after, where [marg = width - len(s)];
    a string at least [width] long is returned as it is.  Lengths are
    counted in characters of the Rocq string, which is Python's [len] on
    ASCII text. *)
Definition center (s : string) (width : nat) : string :=
  let len := String.length s in
  if (width <=? len)%nat then s
  else
    let marg := width - len in
    let left := Nat.div2 marg + Nat.land (Nat.land marg width) 1 in
    replicate left " " ++ s ++ replicate (marg - left) " ".

(** [sep.join(parts)]. *)
Definition join (sep : string) (parts : list string) : string :=
  String.concat sep parts.

Fixpoint contains (c : ascii) (s : string) : bool :=
  match s with
  | EmptyString => false
  | String d s' => Ascii.eqb c d || contains c s'
  end.

Definition hex_digit (n : nat) : ascii :=
  match n with
  | 0 => "0" | 1 => "1" | 2 => "2" | 3 => "3" | 4 => "4" | 5 => "5"
  | 6 => "6" | 7 => "7" | 8 => "8" | 9 => "9" | 10 => "a" | 11 => "b"
  | 12 => "c" | 13 => "d" | 14 => "e" | _ => "f"
  end%char.

Definition backslash : ascii := ascii_of_nat 92.
Definition squote : ascii := ascii_of_nat 39.
Definition dquote : ascii := ascii_of_nat 34.

(** One character of [repr(s)] between the quotes. *)
Definition repr_char (quote c : ascii) : string :=
  let n := nat_of_ascii c in
  if Ascii.eqb c quote || Ascii.eqb c backslash then String backslash (String c EmptyString)
  else if (n =? 9)%nat then String backslash "t"
  else if (n =? 10)%nat then String backslash "n"
  else if (n =? 13)%nat then String backslash "r"
  else if ((n <? 32) || (n =? 127))%nat then
    String backslash (String "x" (String (hex_digit (n / 16)) (String (hex_digit (n mod 16)) EmptyString)))
  else String c EmptyString.

Fixpoint repr_body (quote : ascii) (s : string) : string :=
  match s with
  | EmptyString => EmptyString
  | String c s' => repr_char quote c ++ repr_body quote s'
  end.

(** [repr(s)] for a [str], as the [=] specifier of an f-string applies it:
    single quotes unless the text has a single quote and no double quote.
    Bytes above 127 are kept, as CPython keeps printable non-ASCII text. *)
Definition repr (s : string) : string :=
  let quote := if contains squote s && negb (contains dquote s) then dquote else squote in
  String quote (repr_body quote s ++ String quote EmptyString).

(** Truth value of a [str] in a condition: every string but the empty
    one is true. *)
Definition truthy (s : string) : bool :=
  negb (String.eqb s EmptyString).

End PyStr.

(** ** Command arguments: [str | tuple[str, ...]] *)

Inductive cmd_arg : Type :=
| CmdStr (s : string)
| CmdTuple (t : list string).

Definition _preprocess_cmd_and_print (cmd : cmd_arg) : list string * string :=
  match cmd with
  | CmdStr s =>
      let print_string := s in
      let tuplified_cmd := [s] in
      (tuplified_cmd, print_string)
  | CmdTuple t =>
      let print_string := PyStr.join " " t in
      (t, print_string)
  end.

(** ** The repository descriptor *)

Record Repo : Type := mkRepo {
  owner : string;
  repo : string;
  destination : option string
}.

Module RepoM.

(** [Repo.__str__] *)
Definition str (self : Repo) : string :=
  owner self ++ "/" ++ repo self.

(** The [get_clone_cmd] property.  [if self.destination:] is a truth
    test on a [str | None]: [None] and the empty string are both false. *)
Definition get_clone_cmd (self : Repo) : list string :=
  match destination self with
  | Some d =>
      if PyStr.truthy d then ["git"; "clone"; "git@github.com:" ++ str self; d]
      else ["git"; "clone"; "git@github.com:" ++ str self]
  | None => ["git"; "clone"; "git@github.com:" ++ str self]
  end.

(** The [_get_print_line] property, with the same truth test. *)
Definition _get_print_line (self : Repo) : string :=
  match destination self with
  | Some d =>
      if PyStr.truthy d then "cloning repo " ++ str self ++ " to " ++ d
      else "cloning repo " ++ str self
  | None => "cloning repo " ++ str self
  end.

End RepoM.

(** ** Effects

    What the script asks of the outside world.  Each call has the type of
    answer Python gives back when it does not raise. *)

Record CompletedProcess : Type := mkCompleted { returncode : Z }.

Inductive syscall : Type :=
| print (text : string)
    (* the bytes one [print(...)] writes to stdout, its [end] included *)
| subprocess_run (args : list string) (cwd : option string)
| shutil_move (src dst : string)
| shutil_rmtree (path : string)
| os_remove (path : string)
| open_yaml_safe_load (path : string).
    (* [with open(path) as f: yaml.safe_load(f)], for a document that is a
       sequence of strings *)

Definition answer (c : syscall) : Type :=
  match c with
  | print _ => unit
  | subprocess_run _ _ => CompletedProcess
  | shutil_move _ _ => string
  | shutil_rmtree _ => unit
  | os_remove _ => unit
  | open_yaml_safe_load _ => list string
  end.

(** Programs: a tree of calls, each continued with the call's answer. *)
Inductive py (A : Type) : Type :=
| Return (a : A)
| Call (c : syscall) (k : answer c -> py A).

Arguments Return {A} a.
Arguments Call {A} c k.

Fixpoint bind {A B : Type} (p : py A) (f : A -> py B) : py B :=
  match p with
  | Return a => f a
  | Call c k => Call c (fun x => bind (k x) f)
  end.

Definition call (c : syscall) : py (answer c) := Call c (fun x => Return x).

Declare Scope py_scope.
Delimit Scope py_scope with py.
Bind Scope py_scope with py.
Notation "x <- p ;; q" := (bind p (fun x => q))
  (at level 61, p at next level, right associativity) : py_scope.
Notation "p ;; q" := (bind p (fun _ => q))
  (at level 61, right associativity) : py_scope.
Local Open Scope py_scope.

(** [for x in xs: body(x)] *)
Fixpoint for_each {X : Type} (xs : list X) (body : X -> py unit) : py unit :=
  match xs with
  | [] => Return tt
  | x :: xs' => body x ;; for_each xs' body
  end.

(** A call either returns its answer or raises; the script has no
    [try], so a raised exception ends the run. *)
Inductive outcome (A : Type) : Type :=
| Returns (a : A)
| Raises.

Arguments Returns {A} a.
Arguments Raises {A}.

(** An executor answers a call knowing the calls made before it. *)
Definition executor : Type := list syscall -> forall c : syscall, outcome (answer c).

(** [exec e h p]: the calls [p] makes, in order, when [h] was made before,
    and how [p] ends. *)
Fixpoint exec {A : Type} (e : executor) (h : list syscall) (p : py A)
  : list syscall * outcome A :=
  match p with
  | Return a => ([], Returns a)
  | Call c k =>
      match e h c with
      | Returns x =>
          let (t, r) := exec e (h ++ [c])%list (k x) in (c :: t, r)
      | Raises => ([c], Raises)
      end
  end.

Definition trace {A : Type} (e : executor) (p : py A) : list syscall :=
  fst (exec e [] p).

Definition result {A : Type} (e : executor) (p : py A) : outcome A :=
  snd (exec e [] p).

(** A provisioning step is a call with an effect on the machine: a
    process, a move or a deletion.  Banners and the read of the YAML file
    are not. *)
Definition is_step (c : syscall) : bool :=
  match c with
  | subprocess_run _ _ | shutil_move _ _ | shutil_rmtree _ | os_remove _ => true
  | print _ | open_yaml_safe_load _ => false
  end.

Definition steps (t : list syscall) : list syscall := filter is_step t.

(** ** The helpers of the script *)

Definition nl : string := String (ascii_of_nat 10) EmptyString.

Definition rule : string := PyStr.replicate 79 "=".

Definition _print_line (s : string) : py unit :=
  (call (print (rule ++ nl)) ;;
   call (print (PyStr.center s 79 ++ nl)) ;;
   call (print (rule ++ nl ++ nl))).

Definition _sudo_apt_install (cmd : cmd_arg) : py unit :=
  let '(_cmd, print_cmd) := _preprocess_cmd_and_print cmd in
  (_print_line ("sudo apt install " ++ print_cmd) ;;
   _ <- call (subprocess_run (["sudo"; "apt"; "install"] ++ _cmd ++ ["-y"])%list None) ;;
   Return tt).

Definition _sudo_bash_cmd (cmd : string) : py unit :=
  (_print_line ("bash " ++ cmd) ;;
   _ <- call (subprocess_run ["bash"; cmd] None) ;;
   Return tt).

Definition _clone_github_repo (r : Repo) : py unit :=
  (_print_line (RepoM._get_print_line r) ;;
   _ <- call (subprocess_run (RepoM.get_clone_cmd r) None) ;;
   Return tt).

Definition _move_file (origin destination : string) : py unit :=
  (_print_line ("moving from " ++ origin ++ " to " ++ destination) ;;
   _ <- call (shutil_move origin destination) ;;
   Return tt).

Definition _delete_directory (directory : string) : py unit :=
  (_print_line ("deleting directory=" ++ PyStr.repr directory) ;;
   call (shutil_rmtree directory)).

Definition _delete_file (file : string) : py unit :=
  (_print_line ("deleting file=" ++ PyStr.repr file) ;;
   call (os_remove file)).

Definition _run_python (cmd : cmd_arg) (cwd : option string) : py unit :=
  let '(_cmd, print_cmd) := _preprocess_cmd_and_print cmd in
  (_print_line ("running python3 " ++ print_cmd) ;;
   _ <- call (subprocess_run ("python3" :: _cmd) cwd) ;;
   Return tt).

Definition _execute_cmd (cmd : cmd_arg) (cwd : option string) : py unit :=
  let '(_cmd, print_cmd) := _preprocess_cmd_and_print cmd in
  (_print_line ("execute cmd: " ++ print_cmd) ;;
   _ <- call (subprocess_run _cmd cwd) ;;
   Return tt).

(** ** The top-level procedure *)

(** The namespace [argparse] returns: three [store_true] flags. *)
Record Args : Type := mkArgs {
  install_guest_edition : bool;
  testing : bool;
  clean_up : bool
}.

(** [if b: body] *)
Definition when (b : bool) (body : py unit) : py unit :=
  if b then body else Return tt.

(** A literal wrapped in double quotes, as in ['"SiQube"']. *)
Definition dq (s : string) : string :=
  String PyStr.dquote (s ++ String PyStr.dquote EmptyString).

Section Script.

(** [pwd.getpwuid(os.getuid()).pw_name], read once when the module loads. *)
Variable USER_NAME : string.

Definition USER_HOME : string := "/home/" ++ USER_NAME.

Definition main (args : Args) : py Z :=
  when (clean_up args)
    (_delete_file (USER_HOME ++ "/.vimrc_cl_install") ;;
     _delete_file (USER_HOME ++ "/.vimrc") ;;
     _delete_directory (USER_HOME ++ "/opt") ;;
     _delete_file "/tmp/virtualenv.pyz" ;;
     _execute_cmd (CmdTuple ["sudo"; "rm"; "/bin/virtualenv"]) None ;;
     _execute_cmd (CmdTuple ["sudo"; "rm"; "-rf"; USER_HOME ++ "/.vim"]) None) ;;

  (* update apt *)
  _execute_cmd (CmdTuple ["sudo"; "apt"; "upgrade"; "-y"]) None ;;
  _execute_cmd (CmdTuple ["sudo"; "apt"; "update"; "-y"]) None ;;

  (* setup git *)
  _execute_cmd (CmdTuple ["git"; "config"; "--global"; "user.name"; dq "SiQube"]) None ;;
  _execute_cmd
    (CmdTuple ["git"; "config"; "--global"; "user.email"; dq "reich.davidr@gmail.com"])
    None ;;

  (* get vim *)
  _sudo_apt_install (CmdStr "vim") ;;
  _clone_github_repo (mkRepo "siqube" "scratch" None) ;;
  _move_file "scratch/.vimrc_cl_install" USER_HOME ;;
  (* setup youcompleteme *)
  _execute_cmd (CmdTuple ["mkdir"; "-p"; "/etc/apt/keyrings"]) None ;;
  _sudo_apt_install (CmdStr "cmake") ;;
  _sudo_apt_install (CmdStr "mono-complete") ;;
  _sudo_apt_install (CmdStr "golang") ;;
  _sudo_apt_install (CmdStr "nodejs") ;;
  _sudo_apt_install (CmdStr "openjdk-17-jdk") ;;
  _sudo_apt_install (CmdStr "openjdk-17-jre") ;;
  _sudo_apt_install (CmdStr "npm") ;;
  _execute_cmd (CmdTuple ["sudo"; "mkdir"; "-p"; USER_HOME ++ "/.vim/bundle"]) None ;;
  _execute_cmd (CmdTuple ["sudo"; "chmod"; "777"; USER_HOME ++ "/.vim"]) None ;;
  _execute_cmd (CmdTuple ["sudo"; "chmod"; "777"; USER_HOME ++ "/.vim/bundle"]) None ;;
  _clone_github_repo
    (mkRepo "ycm-core" "YouCompleteMe"
       (Some (USER_HOME ++ "/.vim/bundle/YouCompleteMe"))) ;;
  _execute_cmd
    (CmdTuple ["git"; "submodule"; "update"; "--init"; "--recursive"])
    (Some (USER_HOME ++ "/.vim/bundle/YouCompleteMe")) ;;
  _sudo_apt_install (CmdStr "python3-dev") ;;
  _run_python
    (CmdTuple ["install.py"; "--all"])
    (Some (USER_HOME ++ "/.vim/bundle/YouCompleteMe")) ;;

  _clone_github_repo
    (mkRepo "VundleVim" "Vundle.vim" (Some (USER_HOME ++ "/.vim/bundle/Vundle.vim"))) ;;
  _execute_cmd
    (CmdTuple ["vim"; "-u"; USER_HOME ++ "/.vimrc_cl_install"; "+PluginInstall"; "+qall"])
    None ;;
  _move_file "scratch/.vimrc" USER_HOME ;;
  _execute_cmd (CmdTuple ["vim"; USER_HOME ++ "/.vimrc"; "+PluginInstall"; "+qall"]) None ;;
  _delete_directory "scratch" ;;
  when (testing args)
    (_execute_cmd (CmdTuple ["sudo"; "rm"; "-rf"; USER_HOME ++ "/.vim"]) None ;;
     _delete_file (USER_HOME ++ "/.vimrc")) ;;

  (* basic apt packages I need *)
  _sudo_apt_install (CmdStr "perl") ;;
  _sudo_apt_install (CmdStr "make") ;;
  _sudo_apt_install (CmdStr "gcc") ;;
  _sudo_apt_install (CmdStr "bzip2") ;;
  _sudo_apt_install (CmdStr "curl") ;;
  _sudo_apt_install (CmdStr "build-essential") ;;

  (* setup virtualenv *)
  _execute_cmd
    (CmdTuple ["curl"; "--location"; "--output"; "/tmp/virtualenv.pyz";
               "https://bootstrap.pypa.io/virtualenv.pyz"])
    None ;;
  _run_python (CmdTuple ["/tmp/virtualenv.pyz"; USER_HOME ++ "/opt/venv"]) None ;;
  _execute_cmd (CmdTuple [USER_HOME ++ "/opt/venv/bin/pip"; "install"; "virtualenv"]) None ;;
  _execute_cmd
    (CmdTuple ["sudo"; "ln"; "-s"; USER_HOME ++ "/opt/venv/bin/virtualenv"; "/bin/virtualenv"])
    None ;;

  when (testing args)
    (_delete_directory (USER_HOME ++ "/opt") ;;
     _delete_file "/tmp/virtualenv.pyz" ;;
     _execute_cmd (CmdTuple ["sudo"; "rm"; "/bin/virtualenv"]) None) ;;

  (* install python versions *)
  _sudo_apt_install (CmdStr "software-properties-common") ;;
  _execute_cmd (CmdTuple ["sudo"; "add-apt-repository"; "ppa:deadsnakes/ppa"; "-y"]) None ;;
  python_versions <- call (open_yaml_safe_load "python_versions.yaml") ;;
  for_each python_versions
    (fun python_version => _sudo_apt_install (CmdStr ("python" ++ python_version))) ;;

  when (install_guest_edition args)
    (* install guess edition *)
    (_sudo_bash_cmd ("/media/" ++ USER_NAME ++ "/VBox_GAs_7.0.12/autorun.sh")) ;;

  Return 0%Z.

End Script.

(** A fake executor: nothing is run for real.  Every process exits with
    [status], [shutil.move] answers its destination, deletions succeed, and
    the working directory holds one file, [python_versions.yaml], with the
    sequence [versions]. *)
Definition fake_executor (status : Z) (versions : list string) : executor :=
  fun _ c =>
    match c as c0 return outcome (answer c0) with
    | print _ => Returns tt
    | subprocess_run _ _ => Returns (mkCompleted status)
    | shutil_move _ dst => Returns dst
    | shutil_rmtree _ => Returns tt
    | os_remove _ => Returns tt
    | open_yaml_safe_load path =>
        if String.eqb path "python_versions.yaml" then Returns versions else Raises
    end.

(** The command plan of a run: the provisioning steps [main] makes
    against the fake executor. *)
Definition plan (USER_NAME : string) (args : Args) (versions : list string)
  : list syscall :=
  steps (trace (fake_executor 0 versions) (main USER_NAME args)).

(** ** The blocks of the plan, as the specification names them *)

Definition apt_install (pkg : string) : syscall :=
  subprocess_run ["sudo"; "apt"; "install"; pkg; "-y"] None.

Definition optional (flag : bool) (block : list syscall) : list syscall :=
  if flag then block else [].

Section Blocks.

Variable USER_NAME : string.

Let HOME : string := USER_HOME USER_NAME.

Definition cleanup_block : list syscall :=
  [ os_remove (HOME ++ "/.vimrc_cl_install");
    os_remove (HOME ++ "/.vimrc");
    shutil_rmtree (HOME ++ "/opt");
    os_remove "/tmp/virtualenv.pyz";
    subprocess_run ["sudo"; "rm"; "/bin/virtualenv"] None;
    subprocess_run ["sudo"; "rm"; "-rf"; HOME ++ "/.vim"] None ].

Definition apt_update_block : list syscall :=
  [ subprocess_run ["sudo"; "apt"; "upgrade"; "-y"] None;
    subprocess_run ["sudo"; "apt"; "update"; "-y"] None ].

Definition git_identity_block : list syscall :=
  [ subprocess_run ["git"; "config"; "--global"; "user.name"; dq "SiQube"] None;
    subprocess_run
      ["git"; "config"; "--global"; "user.email"; dq "reich.davidr@gmail.com"] None ].

Definition vim_setup_block : list syscall :=
  [ apt_install "vim";
    subprocess_run ["git"; "clone"; "git@github.com:siqube/scratch"] None;
    shutil_move "scratch/.vimrc_cl_install" HOME;
    subprocess_run ["mkdir"; "-p"; "/etc/apt/keyrings"] None;
    apt_install "cmake";
    apt_install "mono-complete";
    apt_install "golang";
    apt_install "nodejs";
    apt_install "openjdk-17-jdk";
    apt_install "openjdk-17-jre";
    apt_install "npm";
    subprocess_run ["sudo"; "mkdir"; "-p"; HOME ++ "/.vim/bundle"] None;
    subprocess_run ["sudo"; "chmod"; "777"; HOME ++ "/.vim"] None;
    subprocess_run ["sudo"; "chmod"; "777"; HOME ++ "/.vim/bundle"] None;
    subprocess_run
      ["git"; "clone"; "git@github.com:ycm-core/YouCompleteMe";
       HOME ++ "/.vim/bundle/YouCompleteMe"] None;
    subprocess_run ["git"; "submodule"; "update"; "--init"; "--recursive"]
      (Some (HOME ++ "/.vim/bundle/YouCompleteMe"));
    apt_install "python3-dev";
    subprocess_run ["python3"; "install.py"; "--all"]
      (Some (HOME ++ "/.vim/bundle/YouCompleteMe"));
    subprocess_run
      ["git"; "clone"; "git@github.com:VundleVim/Vundle.vim";
       HOME ++ "/.vim/bundle/Vundle.vim"] None;
    subprocess_run
      ["vim"; "-u"; HOME ++ "/.vimrc_cl_install"; "+PluginInstall"; "+qall"] None;
    shutil_move "scratch/.vimrc" HOME;
    subprocess_run ["vim"; HOME ++ "/.vimrc"; "+PluginInstall"; "+qall"] None;
    shutil_rmtree "scratch" ].

Definition vim_removal_block : list syscall :=
  [ subprocess_run ["sudo"; "rm"; "-rf"; HOME ++ "/.vim"] None;
    os_remove (HOME ++ "/.vimrc") ].

Definition toolchain_block : list syscall :=
  [ apt_install "perl"; apt_install "make"; apt_install "gcc";
    apt_install "bzip2"; apt_install "curl"; apt_install "build-essential" ].

Definition virtualenv_block : list syscall :=
  [ subprocess_run
      ["curl"; "--location"; "--output"; "/tmp/virtualenv.pyz";
       "https://bootstrap.pypa.io/virtualenv.pyz"] None;
    subprocess_run ["python3"; "/tmp/virtualenv.pyz"; HOME ++ "/opt/venv"] None;
    subprocess_run [HOME ++ "/opt/venv/bin/pip"; "install"; "virtualenv"] None;
    subprocess_run
      ["sudo"; "ln"; "-s"; HOME ++ "/opt/venv/bin/virtualenv"; "/bin/virtualenv"] None ].

Definition virtualenv_removal_block : list syscall :=
  [ shutil_rmtree (HOME ++ "/opt");
    os_remove "/tmp/virtualenv.pyz";
    subprocess_run ["sudo"; "rm"; "/bin/virtualenv"] None ].

Definition ppa_block : list syscall :=
  [ apt_install "software-properties-common";
    subprocess_run ["sudo"; "add-apt-repository"; "ppa:deadsnakes/ppa"; "-y"] None ].

Definition interpreter_install (version : string) : syscall :=
  apt_install ("python" ++ version).

Definition guest_additions : syscall :=
  subprocess_run ["bash"; "/media/" ++ USER_NAME ++ "/VBox_GAs_7.0.12/autorun.sh"] None.

(** The sequence of C1 as the claim words it: eight blocks, the fourth
    and sixth being the setup blocks alone, the seventh one interpreter
    install per YAML entry, and no other command. *)
Definition claimed_sequence (args : Args) (versions : list string) : list syscall :=
  (optional (clean_up args) cleanup_block
   ++ apt_update_block
   ++ git_identity_block
   ++ vim_setup_block
   ++ toolchain_block
   ++ virtualenv_block
   ++ map interpreter_install versions
   ++ optional (install_guest_edition args) [guest_additions])%list.

End Blocks.

(** An executor on which the calls picked by [bad] raise. *)
Definition raising_on (bad : syscall -> bool) (e : executor) : executor :=
  fun h c => if bad c then Raises else e h c.

Definition is_os_remove (c : syscall) : bool :=
  match c with
  | os_remove _ => true
  | _ => false
  end.

(** ** Vocabulary of the properties *)

(** An executor is oblivious when its answers do not depend on the calls
    made before. *)
Definition oblivious (e : executor) : Prop :=
  forall h h' c, e h c = e h' c.

(** [p] runs to its end against the fake executor and returns [tt]. *)
Definition completes (status : Z) (versions : list string) (p : py unit) : Prop :=
  result (fake_executor status versions) p = Returns tt.

(** The provisioning steps [p] makes against the fake executor. *)
Definition steps_of (status : Z) (versions : list string) {A : Type} (p : py A)
  : list syscall :=
  steps (trace (fake_executor status versions) p).

Definition raised {A : Type} (o : outcome A) : bool :=
  match o with
  | Returns _ => false
  | Raises => true
  end.

(** Two executors that differ at most in the [CompletedProcess] a process
    comes back with: they raise on the same calls and give the same answer
    to every call that is not a process. *)
Definition same_up_to_status (e1 e2 : executor) : Prop :=
  forall h c,
    match c with
    | subprocess_run _ _ => raised (e1 h c) = raised (e2 h c)
    | _ => e1 h c = e2 h c
    end.

(** [p] behaves the same, call for call and in its result, whatever the
    exit statuses are. *)
Definition status_blind {A : Type} (p : py A) : Prop :=
  forall e1 e2, same_up_to_status e1 e2 -> forall h, exec e1 h p = exec e2 h p.

(** The packages a [_sudo_apt_install] argument names. *)
Definition package_names (cmd : cmd_arg) : list string :=
  match cmd with
  | CmdStr s => [s]
  | CmdTuple t => t
  end.

(** The paths a step deletes: the argument of [os.remove] and of
    [shutil.rmtree], and the operands of an [rm] run directly or under
    [sudo]. *)
Definition rm_operands (args : list string) : list string :=
  filter (fun a => negb (String.prefix "-" a)) args.

Definition deletion_targets (c : syscall) : list string :=
  match c with
  | os_remove file => [file]
  | shutil_rmtree directory => [directory]
  | subprocess_run (a :: b :: operands) _ =>
      if String.eqb a "rm" then rm_operands (b :: operands)
      else if String.eqb a "sudo" && String.eqb b "rm" then rm_operands operands
      else []
  | _ => []
  end.

(** The clone command and log line of C3 as the claim words them: the
    destination is used whenever it is not [None]. *)
Definition claimed_clone_cmd (r : Repo) : list string :=
  match destination r with
  | Some d => ["git"; "clone"; "git@github.com:" ++ owner r ++ "/" ++ repo r; d]
  | None => ["git"; "clone"; "git@github.com:" ++ owner r ++ "/" ++ repo r]
  end.

(** ** Vocabulary of the further properties *)

(** The three lines [_print_line s] writes. *)
Definition banner (s : string) : list syscall :=
  [ print (rule ++ nl); print (PyStr.center s 79 ++ nl); print (rule ++ nl ++ nl) ].

Definition is_print (c : syscall) : bool :=
  match c with
  | print _ => true
  | _ => false
  end.

Definition is_load (c : syscall) : bool :=
  match c with
  | open_yaml_safe_load _ => true
  | _ => false
  end.

(** The steps that run in a working directory of their own. *)
Definition has_cwd (c : syscall) : bool :=
  match c with
  | subprocess_run _ (Some _) => true
  | _ => false
  end.

(** [p], started after the calls [h], prints the banner of [msg], makes
    the one call [action] and nothing else, and raises exactly when that
    call does. *)
Definition announces (e : executor) (h : list syscall) (p : py unit)
    (msg : string) (action : syscall) : Prop :=
  fst (exec e h p) = (banner msg ++ [action])%list
  /\ raised (snd (exec e h p)) = raised (e (h ++ banner msg)%list action).


(** A path of printable ASCII characters without single quote or
    backslash, which [repr] shows as it is between single quotes. *)
Definition plain_char (c : ascii) : bool :=
  let n := nat_of_ascii c in
  ((32 <=? n)%nat && (n <? 127)%nat
   && negb (Ascii.eqb c PyStr.squote) && negb (Ascii.eqb c PyStr.backslash))%bool.

Fixpoint plain (s : string) : bool :=
  match s with
  | EmptyString => true
  | String c s' => plain_char c && plain s'
  end.

(** Printing never fails. *)
Definition prints_return (e : executor) : Prop :=
  forall h text, e h (print text) = Returns tt.


(** Only the read of the YAML file may raise. *)
Definition only_load_raises (e : executor) : Prop :=
  forall h c, is_load c = false -> raised (e h c) = false.

(** When the read of [python_versions.yaml] returns, it returns [versions]. *)
Definition loads (versions : list string) (e : executor) : Prop :=
  forall h,
    e h (open_yaml_safe_load "python_versions.yaml") = Returns versions
    \/ e h (open_yaml_safe_load "python_versions.yaml") = Raises.

(** [p] makes the calls [t] and returns [tt], whatever was called before. *)
Definition runs (e : executor) (p : py unit) (t : list syscall) : Prop :=
  forall h, exec e h p = (t, Returns tt).

(** [p] makes the calls [t] and then ends on a raised exception. *)
Definition stops {A : Type} (e : executor) (p : py A) (t : list syscall) : Prop :=
  forall h, exec e h p = (t, Raises).

(** Against any executor that reads [versions], [p] does what it does
    against the fake executor, up to the point where a call raises. *)
Definition follows_plan {A : Type} (versions : list string) (p : py A) : Prop :=
  forall e, loads versions e -> forall h,
    match exec e h p with
    | (t, Returns a) => exec (fake_executor 0 versions) [] p = (t, Returns a)
    | (t, Raises) =>
        exists rest, fst (exec (fake_executor 0 versions) [] p) = (t ++ rest)%list
    end.



(** ** Checks on concrete inputs *)

Example center_odd : PyStr.center "ab" 5 = "  ab ". Proof. reflexivity. Qed.
Example center_even : PyStr.center "abc" 6 = " abc  ". Proof. reflexivity. Qed.
Example repr_plain : PyStr.repr "scratch" = "'scratch'". Proof. reflexivity. Qed.

Example delete_directory_trace :
  trace (fake_executor 0 []) (_delete_directory "scratch")
  = [ print (rule ++ nl);
      print ("                          deleting directory='scratch'                         "
             ++ nl);
      print (rule ++ nl ++ nl);
      shutil_rmtree "scratch" ].
Proof. reflexivity. Qed.

Example execute_cmd_str_and_tuple :
  steps_of 0 [] (_execute_cmd (CmdStr "ls") None)
  = steps_of 0 [] (_execute_cmd (CmdTuple ["ls"]) None).
Proof. reflexivity. Qed.

(** [os.remove] of a missing file raises, and the run ends there. *)
Example clean_up_stops_at_missing_file :
  let e := raising_on is_os_remove (fake_executor 0 ["3.9"]) in
  steps (trace e (main "siqube" (mkArgs false false true)))
    = [os_remove "/home/siqube/.vimrc_cl_install"]
  /\ result e (main "siqube" (mkArgs false false true)) = Raises.
Proof. split; vm_compute; reflexivity. Qed.

Example plan_without_flags_length :
  length (plan "siqube" (mkArgs false false false) ["3.9"; "3.10"]) = 41.
Proof. vm_compute. reflexivity. Qed.

(** ** Running programs: general facts *)

Section Exec.

Context {A B : Type}.

Lemma exec_bind (e : executor) (p : py A) (f : A -> py B) :
  forall h,
    exec e h (bind p f) =
    match exec e h p with
    | (t, Returns a) =>
        let (t', r) := exec e (h ++ t)%list (f a) in ((t ++ t')%list, r)
    | (t, Raises) => (t, Raises)
    end.
Proof.
  induction p as [a | c k IH]; intro h; simpl.
  - rewrite app_nil_r. destruct (exec e h (f a)); reflexivity.
  - destruct (e h c) as [x |]; [| reflexivity].
    rewrite IH.
    destruct (exec e (h ++ [c])%list (k x)) as [t [a |]]; [| reflexivity].
    rewrite <- app_assoc. simpl.
    destruct (exec e (h ++ c :: t)%list (f a)); reflexivity.
Qed.

End Exec.

Lemma exec_oblivious {A : Type} (e : executor) (p : py A) :
  oblivious e -> forall h h', exec e h p = exec e h' p.
Proof.
  intro He. induction p as [a | c k IH]; intros h h'; simpl.
  - reflexivity.
  - rewrite (He h h' c). destruct (e h' c) as [x |]; [| reflexivity].
    rewrite (IH x (h ++ [c])%list (h' ++ [c])%list). reflexivity.
Qed.

Lemma fake_oblivious status versions : oblivious (fake_executor status versions).
Proof. intros h h' c. reflexivity. Qed.

(** ** Running against the fake executor *)

Section Fake.

Variable status : Z.
Variable versions : list string.

Lemma trace_seq {A : Type} (p : py unit) (q : py A) :
  completes status versions p -> trace (fake_executor status versions) (p ;; q) = (trace (fake_executor status versions) p ++ trace (fake_executor status versions) q)%list.
Proof.
  unfold completes, result, trace. intro Hp.
  rewrite exec_bind. destruct (exec (fake_executor status versions) [] p) as [t r]. simpl in Hp. subst r.
  simpl. rewrite (exec_oblivious q (fake_oblivious status versions) t []).
  destruct (exec (fake_executor status versions) [] q); reflexivity.
Qed.

Lemma result_seq {A : Type} (p : py unit) (q : py A) :
  completes status versions p -> result (fake_executor status versions) (p ;; q) = result (fake_executor status versions) q.
Proof.
  unfold completes, result. intro Hp.
  rewrite exec_bind. destruct (exec (fake_executor status versions) [] p) as [t r]. simpl in Hp. subst r.
  simpl. rewrite (exec_oblivious q (fake_oblivious status versions) t []).
  destruct (exec (fake_executor status versions) [] q); reflexivity.
Qed.

Lemma steps_seq {A : Type} (p : py unit) (q : py A) :
  completes status versions p ->
  steps_of status versions (p ;; q)
  = (steps_of status versions p ++ steps_of status versions q)%list.
Proof.
  intro Hp. unfold steps_of, steps. rewrite (trace_seq q Hp).
  apply filter_app.
Qed.

Lemma completes_seq (p q : py unit) :
  completes status versions p -> completes status versions q -> completes status versions (p ;; q).
Proof.
  intros Hp Hq. unfold completes. rewrite (result_seq q Hp). exact Hq.
Qed.

(** The read of the YAML file hands [versions] to what follows. *)
Lemma trace_load {A : Type} (q : list string -> py A) :
  trace (fake_executor status versions) (vs <- call (open_yaml_safe_load "python_versions.yaml") ;; q vs)
  = open_yaml_safe_load "python_versions.yaml" :: trace (fake_executor status versions) (q versions).
Proof.
  unfold trace. simpl.
  rewrite (exec_oblivious (q versions) (fake_oblivious status versions) _ []).
  destruct (exec (fake_executor status versions) [] (q versions)); reflexivity.
Qed.

Lemma steps_load {A : Type} (q : list string -> py A) :
  steps_of status versions (vs <- call (open_yaml_safe_load "python_versions.yaml") ;; q vs)
  = steps_of status versions (q versions).
Proof. unfold steps_of. rewrite trace_load. reflexivity. Qed.

Lemma result_load {A : Type} (q : list string -> py A) :
  result (fake_executor status versions) (vs <- call (open_yaml_safe_load "python_versions.yaml") ;; q vs)
  = result (fake_executor status versions) (q versions).
Proof.
  unfold result. simpl.
  rewrite (exec_oblivious (q versions) (fake_oblivious status versions) _ []).
  destruct (exec (fake_executor status versions) [] (q versions)); reflexivity.
Qed.

(** The helpers: each completes status versions, and makes one provisioning step. *)

Lemma completes_print_line s : completes status versions (_print_line s).
Proof. reflexivity. Qed.

Lemma steps_print_line s : steps_of status versions (_print_line s) = [].
Proof. reflexivity. Qed.

Lemma completes_sudo_apt_install cmd : completes status versions (_sudo_apt_install cmd).
Proof. destruct cmd; reflexivity. Qed.

Lemma steps_sudo_apt_install_str s :
  steps_of status versions (_sudo_apt_install (CmdStr s)) = [apt_install s].
Proof. reflexivity. Qed.

Lemma completes_sudo_bash_cmd cmd : completes status versions (_sudo_bash_cmd cmd).
Proof. reflexivity. Qed.

Lemma steps_sudo_bash_cmd cmd :
  steps_of status versions (_sudo_bash_cmd cmd) = [subprocess_run ["bash"; cmd] None].
Proof. reflexivity. Qed.

Lemma completes_clone_github_repo r : completes status versions (_clone_github_repo r).
Proof. reflexivity. Qed.

Lemma steps_clone_github_repo r :
  steps_of status versions (_clone_github_repo r) = [subprocess_run (RepoM.get_clone_cmd r) None].
Proof. reflexivity. Qed.

Lemma completes_move_file origin destination :
  completes status versions (_move_file origin destination).
Proof. reflexivity. Qed.

Lemma steps_move_file origin destination :
  steps_of status versions (_move_file origin destination) = [shutil_move origin destination].
Proof. reflexivity. Qed.

Lemma completes_delete_directory directory : completes status versions (_delete_directory directory).
Proof. reflexivity. Qed.

Lemma steps_delete_directory directory :
  steps_of status versions (_delete_directory directory) = [shutil_rmtree directory].
Proof. reflexivity. Qed.

Lemma completes_delete_file file : completes status versions (_delete_file file).
Proof. reflexivity. Qed.

Lemma steps_delete_file file : steps_of status versions (_delete_file file) = [os_remove file].
Proof. reflexivity. Qed.

Lemma completes_run_python cmd cwd : completes status versions (_run_python cmd cwd).
Proof. destruct cmd; reflexivity. Qed.

Lemma steps_run_python_tuple t cwd :
  steps_of status versions (_run_python (CmdTuple t) cwd) = [subprocess_run ("python3" :: t) cwd].
Proof. reflexivity. Qed.

Lemma completes_execute_cmd cmd cwd : completes status versions (_execute_cmd cmd cwd).
Proof. destruct cmd; reflexivity. Qed.

Lemma steps_execute_cmd_tuple t cwd :
  steps_of status versions (_execute_cmd (CmdTuple t) cwd) = [subprocess_run t cwd].
Proof. reflexivity. Qed.

Lemma completes_return : completes status versions (Return tt).
Proof. reflexivity. Qed.

Lemma completes_when b p : completes status versions p -> completes status versions (when b p).
Proof. destruct b; [trivial | reflexivity]. Qed.

Lemma steps_when b p : steps_of status versions (when b p) = optional b (steps_of status versions p).
Proof. destruct b; reflexivity. Qed.

Lemma completes_for_each {X : Type} (xs : list X) (body : X -> py unit) :
  (forall x, completes status versions (body x)) -> completes status versions (for_each xs body).
Proof.
  intro Hb. induction xs as [| x xs IH]; simpl.
  - reflexivity.
  - apply completes_seq; [apply Hb | exact IH].
Qed.

Lemma steps_for_each {X : Type} (xs : list X) (body : X -> py unit) (f : X -> syscall) :
  (forall x, completes status versions (body x)) ->
  (forall x, steps_of status versions (body x) = [f x]) ->
  steps_of status versions (for_each xs body) = map f xs.
Proof.
  intros Hc Hs. induction xs as [| x xs IH]; simpl.
  - reflexivity.
  - rewrite (steps_seq _ (Hc x)), Hs, IH. reflexivity.
Qed.

End Fake.

Create HintDb run_to_end discriminated.

#[local] Hint Resolve
  completes_print_line completes_sudo_apt_install completes_sudo_bash_cmd
  completes_clone_github_repo completes_move_file completes_delete_directory
  completes_delete_file completes_run_python completes_execute_cmd
  completes_return completes_when completes_seq completes_for_each : run_to_end.

Create Rewrite HintDb plan_steps.

#[local] Hint Rewrite
  steps_sudo_apt_install_str steps_sudo_bash_cmd steps_clone_github_repo
  steps_move_file steps_delete_directory steps_delete_file
  steps_run_python_tuple steps_execute_cmd_tuple steps_when : plan_steps.

(** Splits a sequence of helpers into the steps of each. *)
Ltac split_steps :=
  repeat (rewrite steps_seq by auto 10 with run_to_end);
  autorewrite with plan_steps.

(** ** The plan of [main], block by block *)

Lemma steps_main (status : Z) (versions : list string) (USER_NAME : string) (args : Args) :
  steps_of status versions (main USER_NAME args) =
    (optional (clean_up args) (cleanup_block USER_NAME)
     ++ apt_update_block
     ++ git_identity_block
     ++ (vim_setup_block USER_NAME
         ++ optional (testing args) (vim_removal_block USER_NAME))
     ++ toolchain_block
     ++ (virtualenv_block USER_NAME
         ++ optional (testing args) (virtualenv_removal_block USER_NAME))
     ++ ppa_block
     ++ map interpreter_install versions
     ++ optional (install_guest_edition args) [guest_additions USER_NAME])%list.
Proof.
  unfold main.
  split_steps.
  rewrite steps_load.
  split_steps.
  rewrite (steps_for_each _ _ interpreter_install)
    by (intros; auto with run_to_end; apply steps_sudo_apt_install_str).
  split_steps.
  change (steps_of status versions (Return 0%Z)) with (@nil syscall).
  rewrite app_nil_r.
  reflexivity.
Qed.

Lemma result_main (status : Z) (versions : list string) (USER_NAME : string) (args : Args) :
  result (fake_executor status versions) (main USER_NAME args) = Returns 0%Z.
Proof.
  unfold main.
  repeat (rewrite result_seq by auto 10 with run_to_end).
  rewrite result_load.
  repeat (rewrite result_seq by auto 10 with run_to_end).
  reflexivity.
Qed.

Lemma plan_blocks (USER_NAME : string) (args : Args) (versions : list string) :
  plan USER_NAME args versions =
    (optional (clean_up args) (cleanup_block USER_NAME)
     ++ apt_update_block
     ++ git_identity_block
     ++ (vim_setup_block USER_NAME
         ++ optional (testing args) (vim_removal_block USER_NAME))
     ++ toolchain_block
     ++ (virtualenv_block USER_NAME
         ++ optional (testing args) (virtualenv_removal_block USER_NAME))
     ++ ppa_block
     ++ map interpreter_install versions
     ++ optional (install_guest_edition args) [guest_additions USER_NAME])%list.
Proof. exact (steps_main 0 versions USER_NAME args). Qed.

(** ** Command formatting *)

(** C10.  Preprocessing a bare string and preprocessing its one-element
    tuple give the same pair, the command [(s,)] and the printed text [s]. *)
Theorem preprocess_str_is_singleton_tuple (s : string) :
  _preprocess_cmd_and_print (CmdStr s) = _preprocess_cmd_and_print (CmdTuple [s])
  /\ _preprocess_cmd_and_print (CmdStr s) = ([s], s).
Proof. split; reflexivity. Qed.

(** C7.  For a package argument that is one string or a tuple of strings,
    [_sudo_apt_install] prints the banner of [sudo apt install] followed by
    the space-joined package names, then runs the single command
    [sudo apt install <packages...> -y], and nothing else. *)
Theorem sudo_apt_install_command (status : Z) (versions : list string) (cmd : cmd_arg) :
  trace (fake_executor status versions) (_sudo_apt_install cmd) =
    [ print (rule ++ nl);
      print (PyStr.center ("sudo apt install " ++ PyStr.join " " (package_names cmd)) 79 ++ nl);
      print (rule ++ nl ++ nl);
      subprocess_run (["sudo"; "apt"; "install"] ++ package_names cmd ++ ["-y"])%list None ].
Proof. destruct cmd as [s | t]; reflexivity. Qed.

(** ** The repository descriptor *)

(** C3, as amended.  A destination that is a non-empty string gives the
    four-element clone command ending in it and a log line that names it;
    a destination that is [None] or the empty string gives the
    three-element command and a log line without destination. *)
Theorem clone_cmd_by_destination (r : Repo) :
  (forall d, destination r = Some d -> d <> EmptyString ->
     RepoM.get_clone_cmd r
       = ["git"; "clone"; "git@github.com:" ++ owner r ++ "/" ++ repo r; d]
     /\ RepoM._get_print_line r
       = "cloning repo " ++ (owner r ++ "/" ++ repo r) ++ " to " ++ d)
  /\ (destination r = None \/ destination r = Some EmptyString ->
     RepoM.get_clone_cmd r
       = ["git"; "clone"; "git@github.com:" ++ owner r ++ "/" ++ repo r]
     /\ RepoM._get_print_line r
       = "cloning repo " ++ owner r ++ "/" ++ repo r).
Proof.
  unfold RepoM.get_clone_cmd, RepoM._get_print_line, RepoM.str.
  split.
  - intros d Hd Hne. rewrite Hd.
    destruct d as [| c d']; [contradiction Hne; reflexivity |].
    split; reflexivity.
  - intros [Hd | Hd]; rewrite Hd; split; reflexivity.
Qed.

Lemma clone_cmd_by_destination_witness :
  RepoM.get_clone_cmd (mkRepo "VundleVim" "Vundle.vim" (Some "/home/siqube/.vim/bundle/Vundle.vim"))
    = ["git"; "clone"; "git@github.com:VundleVim/Vundle.vim";
       "/home/siqube/.vim/bundle/Vundle.vim"]
  /\ RepoM.get_clone_cmd (mkRepo "siqube" "scratch" None)
    = ["git"; "clone"; "git@github.com:siqube/scratch"].
Proof.
  split.
  - apply (proj1 (clone_cmd_by_destination
                    (mkRepo "VundleVim" "Vundle.vim"
                       (Some "/home/siqube/.vim/bundle/Vundle.vim")))
             "/home/siqube/.vim/bundle/Vundle.vim" eq_refl).
    discriminate.
  - apply (proj2 (clone_cmd_by_destination (mkRepo "siqube" "scratch" None))).
    left. reflexivity.
Defined.

(** C3 as stated fails: a destination set to the empty string is not
    [None], yet the clone command has three elements, not four, and the
    log line does not mention a destination. *)
Lemma clone_cmd_empty_destination :
  let r := mkRepo "siqube" "scratch" (Some EmptyString) in
  destination r <> None
  /\ RepoM.get_clone_cmd r <> claimed_clone_cmd r
  /\ RepoM.get_clone_cmd r = ["git"; "clone"; "git@github.com:siqube/scratch"]
  /\ RepoM._get_print_line r = "cloning repo siqube/scratch".
Proof.
  repeat split; try discriminate; reflexivity.
Qed.

Lemma prefix_append (p s : string) : String.prefix p (p ++ s) = true.
Proof.
  induction p as [| a p IH]; simpl.
  - destruct s; reflexivity.
  - destruct (ascii_dec a a) as [_ | Hne]; [exact IH | contradiction Hne; reflexivity].
Qed.

(** C9.  The third element of every clone command is [git@github.com:]
    followed by [owner/repo]: the SSH form, never an [https://] URL. *)
Theorem clone_cmd_targets_ssh (r : Repo) :
  let url := "git@github.com:" ++ owner r ++ "/" ++ repo r in
  nth_error (RepoM.get_clone_cmd r) 2 = Some url
  /\ String.prefix "git@github.com:" url = true
  /\ String.prefix "https://" url = false.
Proof.
  cbv zeta. split; [| split].
  - unfold RepoM.get_clone_cmd, RepoM.str.
    destruct (destination r) as [d |]; [destruct (PyStr.truthy d) |]; reflexivity.
  - exact (prefix_append "git@github.com:" _).
  - reflexivity.
Qed.

(** ** The command plan *)

(** C1, as amended.  For every combination of the flags and every list of
    versions, the plan is: the clean-up deletions if [clean_up]; the apt
    upgrade and update; the git identity; the editor block, ending with
    its removal if [testing]; the toolchain installs; the virtualenv
    block, ending with its removal if [testing]; the install of
    [software-properties-common] and the registration of the deadsnakes
    PPA; one interpreter install per YAML entry; the guest-additions
    script if [install_guest_edition].  In this order, and nothing else. *)
Theorem plan_is_fixed_sequence (USER_NAME : string) (args : Args) (versions : list string) :
  plan USER_NAME args versions =
    (optional (clean_up args) (cleanup_block USER_NAME)
     ++ apt_update_block
     ++ git_identity_block
     ++ (vim_setup_block USER_NAME
         ++ optional (testing args) (vim_removal_block USER_NAME))
     ++ toolchain_block
     ++ (virtualenv_block USER_NAME
         ++ optional (testing args) (virtualenv_removal_block USER_NAME))
     ++ ppa_block
     ++ map interpreter_install versions
     ++ optional (install_guest_edition args) [guest_additions USER_NAME])%list.
Proof. apply plan_blocks. Qed.

(** C1 as stated fails in two ways.  With no flag set and an empty
    version list the claimed sequence ends with the virtualenv block, but
    the plan goes on with two more commands, which are no interpreter
    install of a YAML entry.  With [testing] set the plan also holds the
    removal commands, which the claimed sequence has not. *)
Lemma plan_has_more_commands :
  (let args := mkArgs false false false in
   plan "siqube" args [] <> claimed_sequence "siqube" args []
   /\ plan "siqube" args []
      = (claimed_sequence "siqube" args []
         ++ [ subprocess_run
                ["sudo"; "apt"; "install"; "software-properties-common"; "-y"] None;
              subprocess_run
                ["sudo"; "add-apt-repository"; "ppa:deadsnakes/ppa"; "-y"] None ])%list)
  /\ (let args := mkArgs false true false in
      In (os_remove "/home/siqube/.vimrc") (plan "siqube" args ["3.9"])
      /\ ~ In (os_remove "/home/siqube/.vimrc") (claimed_sequence "siqube" args ["3.9"])).
Proof.
  cbv zeta. split; split.
  - intro H. apply (f_equal (@length syscall)) in H.
    rewrite plan_blocks in H. vm_compute in H. discriminate H.
  - rewrite plan_blocks. reflexivity.
  - rewrite plan_blocks. simpl. do 28 right. left. reflexivity.
  - simpl. intuition discriminate.
Qed.

(** C4.  The plan depends on the version list only through the
    interpreter installs: between two runs of commands that do not depend
    on the list, there is exactly one command per entry, in the order of
    the entries, each [sudo apt install python<version> -y]. *)
Theorem one_install_per_version (USER_NAME : string) (args : Args) :
  exists before after : list syscall,
    forall versions : list string,
      plan USER_NAME args versions =
        (before
         ++ map (fun version =>
                   subprocess_run
                     ["sudo"; "apt"; "install"; ("python" ++ version)%string; "-y"] None)
                versions
         ++ after)%list.
Proof.
  exists (optional (clean_up args) (cleanup_block USER_NAME)
          ++ apt_update_block
          ++ git_identity_block
          ++ (vim_setup_block USER_NAME
              ++ optional (testing args) (vim_removal_block USER_NAME))
          ++ toolchain_block
          ++ (virtualenv_block USER_NAME
              ++ optional (testing args) (virtualenv_removal_block USER_NAME))
          ++ ppa_block)%list,
         (optional (install_guest_edition args) [guest_additions USER_NAME]).
  intro versions. rewrite plan_blocks.
  repeat rewrite <- app_assoc. reflexivity.
Qed.

(** C2.  Two runs that differ in one flag have plans that differ by that
    flag's blocks only: [clean_up] puts the clean-up deletions in front,
    [install_guest_edition] puts the guest-additions script at the end,
    and [testing] inserts the two removal blocks, each right after the
    block it undoes, between three stretches that are the same in both
    runs. *)
Theorem flag_toggles_only_its_block (USER_NAME : string) (versions : list string) :
  (forall guest testing_ : bool,
     plan USER_NAME (mkArgs guest testing_ true) versions
     = (cleanup_block USER_NAME ++ plan USER_NAME (mkArgs guest testing_ false) versions)%list)
  /\ (forall testing_ clean : bool,
     plan USER_NAME (mkArgs true testing_ clean) versions
     = (plan USER_NAME (mkArgs false testing_ clean) versions ++ [guest_additions USER_NAME])%list)
  /\ (forall guest clean : bool,
     exists pre mid post : list syscall,
       plan USER_NAME (mkArgs guest false clean) versions = (pre ++ mid ++ post)%list
       /\ plan USER_NAME (mkArgs guest true clean) versions
          = (pre ++ vim_removal_block USER_NAME
             ++ mid ++ virtualenv_removal_block USER_NAME ++ post)%list).
Proof.
  split; [| split].
  - intros guest testing_. rewrite !plan_blocks. reflexivity.
  - intros testing_ clean. rewrite !plan_blocks. simpl optional.
    rewrite app_nil_r. repeat rewrite <- app_assoc. reflexivity.
  - intros guest clean.
    exists (optional clean (cleanup_block USER_NAME)
            ++ apt_update_block ++ git_identity_block ++ vim_setup_block USER_NAME)%list,
           (toolchain_block ++ virtualenv_block USER_NAME)%list,
           (ppa_block ++ map interpreter_install versions
            ++ optional guest [guest_additions USER_NAME])%list.
    rewrite !plan_blocks. simpl optional.
    split; repeat rewrite <- app_assoc; rewrite ?app_nil_r; reflexivity.
Qed.

(** Nothing before the guest-additions script is that script. *)
Lemma guest_additions_not_earlier (USER_NAME : string) (clean testing_ : bool)
    (versions : list string) :
  ~ In (guest_additions USER_NAME)
      (optional clean (cleanup_block USER_NAME)
       ++ apt_update_block
       ++ git_identity_block
       ++ (vim_setup_block USER_NAME ++ optional testing_ (vim_removal_block USER_NAME))
       ++ toolchain_block
       ++ (virtualenv_block USER_NAME
           ++ optional testing_ (virtualenv_removal_block USER_NAME))
       ++ ppa_block
       ++ map interpreter_install versions)%list.
Proof.
  unfold guest_additions. intro H.
  repeat (apply in_app_or in H; destruct H as [H | H]).
  all: try (destruct clean; simpl in H; intuition discriminate).
  all: try (destruct testing_; simpl in H; intuition discriminate).
  apply in_map_iff in H. destruct H as [version [H _]]. discriminate H.
Qed.

(** C8.  The guest-additions script is in the plan exactly when
    [install_guest_edition] is set; when it is, it is the last step of the
    plan and occurs nowhere before; and the run then returns 0. *)
Theorem guest_additions_iff_flag_and_last
    (USER_NAME : string) (args : Args) (versions : list string) :
  (In (guest_additions USER_NAME) (plan USER_NAME args versions)
   <-> install_guest_edition args = true)
  /\ (install_guest_edition args = true ->
      exists before : list syscall,
        plan USER_NAME args versions = (before ++ [guest_additions USER_NAME])%list
        /\ ~ In (guest_additions USER_NAME) before)
  /\ result (fake_executor 0 versions) (main USER_NAME args) = Returns 0%Z.
Proof.
  pose proof (guest_additions_not_earlier USER_NAME (clean_up args) (testing args) versions)
    as Hnot.
  assert (Hplan := plan_blocks USER_NAME args versions).
  repeat rewrite (app_assoc _ _ (optional (install_guest_edition args) _)) in Hplan.
  repeat rewrite <- (app_assoc _ _ (map interpreter_install versions)) in Hplan.
  repeat rewrite <- (app_assoc _ _ ppa_block) in Hplan.
  split; [| split].
  - rewrite Hplan. rewrite in_app_iff.
    destruct (install_guest_edition args); simpl; split; intro H.
    + reflexivity.
    + right. left. reflexivity.
    + destruct H as [H | []]. contradiction (Hnot H).
    + discriminate H.
  - intro Hflag. rewrite Hflag in Hplan. simpl optional in Hplan.
    eexists. split; [exact Hplan | exact Hnot].
  - apply result_main.
Qed.

Lemma guest_additions_iff_flag_and_last_witness :
  exists before : list syscall,
    plan "siqube" (mkArgs true false false) ["3.9"; "3.10"]
      = (before ++ [guest_additions "siqube"])%list
    /\ ~ In (guest_additions "siqube") before.
Proof.
  apply (proj1 (proj2 (guest_additions_iff_flag_and_last
                         "siqube" (mkArgs true false false) ["3.9"; "3.10"]))).
  reflexivity.
Defined.

(** ** Exit statuses *)

Lemma blind_return {A : Type} (a : A) : status_blind (Return a).
Proof. intros e1 e2 _ h. reflexivity. Qed.

Lemma blind_bind {A B : Type} (p : py A) (f : A -> py B) :
  status_blind p -> (forall a, status_blind (f a)) -> status_blind (bind p f).
Proof.
  intros Hp Hf e1 e2 He h.
  rewrite !exec_bind, (Hp e1 e2 He h).
  destruct (exec e2 h p) as [t [a |]]; [| reflexivity].
  rewrite (Hf a e1 e2 He). reflexivity.
Qed.

(** A call that is not a process may hand its answer on. *)
Lemma blind_call (c : syscall) :
  (forall args cwd, c <> subprocess_run args cwd) -> status_blind (call c).
Proof.
  intros Hc e1 e2 He h. specialize (He h c). unfold call. simpl.
  destruct c; try (rewrite He; reflexivity).
  contradiction (Hc args cwd). reflexivity.
Qed.

(** A process whose [CompletedProcess] is dropped. *)
Lemma blind_run_discard {A : Type} (args : list string) (cwd : option string) (p : py A) :
  status_blind p -> status_blind (_ <- call (subprocess_run args cwd) ;; p).
Proof.
  intros Hp e1 e2 He h.
  pose proof (He h (subprocess_run args cwd)) as Hc. simpl in *.
  destruct (e1 h (subprocess_run args cwd)), (e2 h (subprocess_run args cwd));
    simpl in Hc; try discriminate Hc; [| reflexivity].
  rewrite (Hp e1 e2 He). reflexivity.
Qed.


Create HintDb blind discriminated.

Lemma blind_print (text : string) : status_blind (call (print text)).
Proof. apply blind_call. discriminate. Qed.

Lemma blind_print_line (s : string) : status_blind (_print_line s).
Proof.
  unfold _print_line.
  repeat (apply blind_bind; [apply blind_print | intros _]).
  apply blind_print.
Qed.

#[local] Hint Resolve blind_return blind_print_line : blind.

(** Banner, then one process whose result is dropped. *)
Ltac blind_helper :=
  apply blind_bind; [apply blind_print_line | intros _];
  apply blind_run_discard, blind_return.

Lemma blind_sudo_apt_install cmd : status_blind (_sudo_apt_install cmd).
Proof.
  destruct cmd; unfold _sudo_apt_install, _preprocess_cmd_and_print; cbv beta iota zeta;
    blind_helper.
Qed.

Lemma blind_sudo_bash_cmd cmd : status_blind (_sudo_bash_cmd cmd).
Proof. unfold _sudo_bash_cmd; blind_helper. Qed.

Lemma blind_clone_github_repo r : status_blind (_clone_github_repo r).
Proof. unfold _clone_github_repo; blind_helper. Qed.

Lemma blind_run_python cmd cwd : status_blind (_run_python cmd cwd).
Proof.
  destruct cmd; unfold _run_python, _preprocess_cmd_and_print; cbv beta iota zeta;
    blind_helper.
Qed.

Lemma blind_execute_cmd cmd cwd : status_blind (_execute_cmd cmd cwd).
Proof.
  destruct cmd; unfold _execute_cmd, _preprocess_cmd_and_print; cbv beta iota zeta;
    blind_helper.
Qed.

Lemma blind_move_file origin destination : status_blind (_move_file origin destination).
Proof.
  unfold _move_file.
  apply blind_bind; [apply blind_print_line | intros _].
  apply blind_bind; [apply blind_call; discriminate | intros _; apply blind_return].
Qed.

Lemma blind_delete_directory directory : status_blind (_delete_directory directory).
Proof.
  unfold _delete_directory.
  apply blind_bind; [apply blind_print_line | intros _].
  apply (@blind_call (shutil_rmtree directory)); discriminate.
Qed.

Lemma blind_delete_file file : status_blind (_delete_file file).
Proof.
  unfold _delete_file.
  apply blind_bind; [apply blind_print_line | intros _].
  apply (@blind_call (os_remove file)); discriminate.
Qed.

Lemma blind_when b p : status_blind p -> status_blind (when b p).
Proof. destruct b; [trivial | intros _; apply blind_return]. Qed.

Lemma blind_for_each {X : Type} (xs : list X) (body : X -> py unit) :
  (forall x, status_blind (body x)) -> status_blind (for_each xs body).
Proof.
  intro Hb. induction xs as [| x xs IH]; simpl.
  - apply blind_return.
  - apply blind_bind; [apply Hb | intros _; exact IH].
Qed.

#[local] Hint Resolve
  blind_sudo_apt_install blind_sudo_bash_cmd blind_clone_github_repo
  blind_run_python blind_execute_cmd blind_move_file blind_delete_directory
  blind_delete_file blind_when blind_for_each : blind.

(** One step through a program built from the helpers. *)
Ltac blind_step :=
  match goal with
  | |- status_blind (bind _ _) => apply blind_bind; [| intros ?]
  | |- status_blind (when _ _) => apply blind_when
  | |- status_blind (for_each _ _) => apply blind_for_each; intros ?
  | |- status_blind (call (open_yaml_safe_load ?path)) =>
      apply (@blind_call (open_yaml_safe_load path)); discriminate
  | |- status_blind _ => solve [auto with blind]
  end.

Lemma blind_main (USER_NAME : string) (args : Args) : status_blind (main USER_NAME args).
Proof. unfold main. repeat blind_step. Qed.

(** C5.  Two executors that differ only in the exit statuses they hand
    back are indistinguishable to the command runner, to every helper that
    launches a process and to the whole script: the same calls are made in
    the same order and the same value is returned (or the same call
    raises). *)
Theorem exit_status_never_inspected (e1 e2 : executor) :
  same_up_to_status e1 e2 ->
  forall h : list syscall,
    (forall cmd cwd, exec e1 h (_execute_cmd cmd cwd) = exec e2 h (_execute_cmd cmd cwd))
    /\ (forall cmd, exec e1 h (_sudo_apt_install cmd) = exec e2 h (_sudo_apt_install cmd))
    /\ (forall cmd, exec e1 h (_sudo_bash_cmd cmd) = exec e2 h (_sudo_bash_cmd cmd))
    /\ (forall r, exec e1 h (_clone_github_repo r) = exec e2 h (_clone_github_repo r))
    /\ (forall cmd cwd, exec e1 h (_run_python cmd cwd) = exec e2 h (_run_python cmd cwd))
    /\ (forall USER_NAME args,
          exec e1 h (main USER_NAME args) = exec e2 h (main USER_NAME args)).
Proof.
  intros He h. repeat split; intros.
  - apply blind_execute_cmd, He.
  - apply blind_sudo_apt_install, He.
  - apply blind_sudo_bash_cmd, He.
  - apply blind_clone_github_repo, He.
  - apply blind_run_python, He.
  - apply blind_main, He.
Qed.

Lemma fake_same_up_to_status (s1 s2 : Z) (versions : list string) :
  same_up_to_status (fake_executor s1 versions) (fake_executor s2 versions).
Proof. intros h c. destruct c; reflexivity. Defined.

Lemma exit_status_never_inspected_witness :
  same_up_to_status (fake_executor 0 ["3.9"]) (fake_executor 1 ["3.9"])
  /\ exec (fake_executor 0 ["3.9"]) [] (main "siqube" (mkArgs true true true))
     = exec (fake_executor 1 ["3.9"]) [] (main "siqube" (mkArgs true true true)).
Proof.
  split.
  - apply fake_same_up_to_status.
  - apply (exit_status_never_inspected (fake_same_up_to_status 0 1 ["3.9"]) []).
Defined.

(** The property has content: a program that hands the exit status on is
    not blind to it. *)
Remark returncode_is_observable :
  ~ status_blind (r <- call (subprocess_run ["true"] None) ;; Return (returncode r)).
Proof.
  intro H.
  specialize (H _ _ (fake_same_up_to_status 0 1 []) []).
  discriminate H.
Qed.

(** ** Testing mode *)

Lemma append_inv_head (s a b : string) : s ++ a = s ++ b -> a = b.
Proof.
  induction s as [| c s IH]; simpl; intro H.
  - exact H.
  - injection H as H. exact (IH H).
Qed.

Lemma interpreter_installs_delete_nothing (versions : list string) :
  flat_map deletion_targets (map interpreter_install versions) = [].
Proof.
  induction versions as [| v versions IH]; simpl.
  - reflexivity.
  - exact IH.
Qed.

(** C6 fails on the code.  A run with [testing] set moves
    [.vimrc_cl_install] into the home directory and deletes exactly
    [scratch], [~/.vim], [~/.vimrc], [~/opt], [/tmp/virtualenv.pyz] and
    [/bin/virtualenv]: the moved file is not among them, although the
    clean-up block, which undoes the same installs, deletes it. *)
Theorem testing_run_leaves_vimrc_cl_install
    (USER_NAME : string) (versions : list string) (guest : bool) :
  let HOME := USER_HOME USER_NAME in
  let testing_run := plan USER_NAME (mkArgs guest true false) versions in
  In (shutil_move "scratch/.vimrc_cl_install" HOME) testing_run
  /\ flat_map deletion_targets testing_run
     = [ "scratch"; HOME ++ "/.vim"; HOME ++ "/.vimrc"; HOME ++ "/opt";
         "/tmp/virtualenv.pyz"; "/bin/virtualenv" ]
  /\ ~ In (HOME ++ "/.vimrc_cl_install") (flat_map deletion_targets testing_run)
  /\ In (HOME ++ "/.vimrc_cl_install") (flat_map deletion_targets (cleanup_block USER_NAME)).
Proof.
  cbv zeta.
  assert (Hdel :
    flat_map deletion_targets (plan USER_NAME (mkArgs guest true false) versions)
    = [ "scratch"; USER_HOME USER_NAME ++ "/.vim"; USER_HOME USER_NAME ++ "/.vimrc";
        USER_HOME USER_NAME ++ "/opt"; "/tmp/virtualenv.pyz"; "/bin/virtualenv" ]).
  { rewrite plan_blocks. rewrite !flat_map_app.
    rewrite interpreter_installs_delete_nothing.
    destruct guest; reflexivity. }
  split; [| split; [exact Hdel | split]].
  - rewrite plan_blocks. simpl. do 6 right. left. reflexivity.
  - rewrite Hdel. unfold USER_HOME. simpl.
    intros [H | [H | [H | [H | [H | [H | []]]]]]];
      try discriminate H;
      injection H as H; apply append_inv_head in H; discriminate H.
  - simpl. left. reflexivity.
Qed.

(** * Further properties of the script *)

(** ** The banner *)



Lemma land_one_le (n : nat) : Nat.land n 1 <= 1.
Proof.
  change 1 with (Nat.ones 1) at 1. rewrite Nat.land_ones.
  change (2 ^ 1) with 2. pose proof (Nat.mod_upper_bound n 2). lia.
Qed.




(** ** One banner, one action *)

Lemma exec_print_line (e : executor) (h : list syscall) (s : string) :
  prints_return e -> exec e h (_print_line s) = (banner s, Returns tt).
Proof.
  intro He. unfold _print_line, banner. cbn [bind call exec].
  rewrite !He. reflexivity.
Qed.

Lemma exec_announce {A : Type} (e : executor) (h : list syscall) (s : string) (k : py A) :
  prints_return e ->
  exec e h (_print_line s ;; k)
  = let (t, r) := exec e (h ++ banner s)%list k in ((banner s ++ t)%list, r).
Proof. intro He. rewrite exec_bind, (exec_print_line h s He). reflexivity. Qed.

Lemma announces_call_discard (e : executor) (h : list syscall) (msg : string)
    (action : syscall) :
  prints_return e ->
  announces e h (_print_line msg ;; _ <- call action ;; Return tt) msg action.
Proof.
  intro He. unfold announces. rewrite (exec_announce h msg _ He).
  cbn [bind call exec].
  destruct (e (h ++ banner msg)%list action); split; reflexivity.
Qed.

Lemma announces_call (e : executor) (h : list syscall) (msg : string)
    (action : syscall) (k : answer action -> py unit) :
  prints_return e ->
  (forall x, k x = Return tt) ->
  announces e h (_print_line msg ;; Call action k) msg action.
Proof.
  intros He Hk. unfold announces. rewrite (exec_announce h msg _ He).
  cbn [exec].
  destruct (e (h ++ banner msg)%list action) as [x |]; [rewrite Hk |]; split; reflexivity.
Qed.

(** X2.  When printing works, every helper prints its banner first and
    then makes exactly one call, whether that call succeeds or not: the
    move, the deletion or the process it is named after.  It raises
    exactly when that one call raises. *)
Theorem helpers_announce_then_act (e : executor) (h : list syscall) :
  prints_return e ->
  (forall origin destination,
     announces e h (_move_file origin destination)
       ("moving from " ++ origin ++ " to " ++ destination)
       (shutil_move origin destination))
  /\ (forall directory,
     announces e h (_delete_directory directory)
       ("deleting directory=" ++ PyStr.repr directory) (shutil_rmtree directory))
  /\ (forall file,
     announces e h (_delete_file file)
       ("deleting file=" ++ PyStr.repr file) (os_remove file))
  /\ (forall r,
     announces e h (_clone_github_repo r)
       (RepoM._get_print_line r) (subprocess_run (RepoM.get_clone_cmd r) None))
  /\ (forall cmd,
     announces e h (_sudo_bash_cmd cmd) ("bash " ++ cmd) (subprocess_run ["bash"; cmd] None))
  /\ (forall cmd cwd,
     announces e h (_run_python cmd cwd)
       ("running python3 " ++ PyStr.join " " (package_names cmd))
       (subprocess_run ("python3" :: package_names cmd) cwd))
  /\ (forall cmd cwd,
     announces e h (_execute_cmd cmd cwd)
       ("execute cmd: " ++ PyStr.join " " (package_names cmd))
       (subprocess_run (package_names cmd) cwd)).
Proof.
  intro He.
  split; [| split; [| split; [| split; [| split; [| split]]]]].
  - intros. apply (announces_call_discard h _ _ He).
  - intros. apply (announces_call h _ _ _ He). intros []. reflexivity.
  - intros. apply (announces_call h _ _ _ He). intros []. reflexivity.
  - intros. apply (announces_call_discard h _ _ He).
  - intros. apply (announces_call_discard h _ _ He).
  - intros [s | t] cwd; apply (announces_call_discard h _ _ He).
  - intros [s | t] cwd; apply (announces_call_discard h _ _ He).
Qed.

Lemma helpers_announce_then_act_witness :
  prints_return (raising_on is_os_remove (fake_executor 0 []))
  /\ announces (raising_on is_os_remove (fake_executor 0 [])) []
       (_delete_file "/tmp/virtualenv.pyz")
       "deleting file='/tmp/virtualenv.pyz'" (os_remove "/tmp/virtualenv.pyz").
Proof.
  assert (H : prints_return (raising_on is_os_remove (fake_executor 0 [])))
    by (intros h text; reflexivity).
  split; [exact H |].
  exact (proj1 (proj2 (proj2 (helpers_announce_then_act [] H))) "/tmp/virtualenv.pyz").
Defined.

(** ** A failure ends the run; nothing is undone or retried *)

Lemma follows_return {A : Type} (versions : list string) (a : A) :
  follows_plan versions (Return a).
Proof. intros e _ h. reflexivity. Qed.

Lemma follows_bind {A B : Type} (versions : list string) (p : py A) (f : A -> py B) :
  follows_plan versions p ->
  (forall a, follows_plan versions (f a)) ->
  follows_plan versions (bind p f).
Proof.
  intros Hp Hf e He h.
  specialize (Hp e He h). rewrite !exec_bind.
  destruct (exec e h p) as [t [a |]].
  - rewrite Hp.
    rewrite (exec_oblivious (f a) (fake_oblivious 0 versions) ([] ++ t)%list []).
    specialize (Hf a e He (h ++ t)%list).
    destruct (exec e (h ++ t)%list (f a)) as [t' [b |]].
    + rewrite Hf. reflexivity.
    + destruct Hf as [rest Hrest]. exists rest.
      destruct (exec (fake_executor 0 versions) [] (f a)) as [u r]. simpl in *.
      rewrite Hrest. apply app_assoc.
  - destruct Hp as [rest Hrest].
    destruct (exec (fake_executor 0 versions) [] p) as [u [a |]]; simpl in *.
    + destruct (exec (fake_executor 0 versions) _ (f a)) as [u' r]. simpl.
      exists (rest ++ u')%list. rewrite Hrest. symmetry. apply app_assoc.
    + exists rest. exact Hrest.
Qed.

(** A call the fake executor answers, whose answer is dropped. *)
Lemma follows_call_discard {A : Type} (versions : list string) (c : syscall) (p : py A) :
  raised (fake_executor 0 versions [] c) = false ->
  follows_plan versions p ->
  follows_plan versions (Call c (fun _ => p)).
Proof.
  intros Hc Hp e He h. cbn [exec].
  destruct (fake_executor 0 versions [] c) as [y |] eqn:Hy; [| discriminate Hc].
  rewrite (exec_oblivious p (fake_oblivious 0 versions) ([] ++ [c])%list []).
  destruct (e h c) as [x |].
  - specialize (Hp e He (h ++ [c])%list).
    destruct (exec e (h ++ [c])%list p) as [t [a |]].
    + rewrite Hp. reflexivity.
    + destruct Hp as [rest Hrest]. exists rest.
      destruct (exec (fake_executor 0 versions) [] p) as [u r]. simpl in *.
      rewrite Hrest. reflexivity.
  - destruct (exec (fake_executor 0 versions) [] p) as [u r]. exists u. reflexivity.
Qed.

Lemma follows_print (versions : list string) (text : string) :
  follows_plan versions (call (print text)).
Proof.
  intros e _ h. unfold call. cbn [exec].
  destruct (e h (print text)) as [[] |]; [reflexivity | eexists; reflexivity].
Qed.

Lemma follows_print_line (versions : list string) (s : string) :
  follows_plan versions (_print_line s).
Proof.
  unfold _print_line.
  repeat (apply follows_bind; [apply follows_print | intros _]).
  apply follows_print.
Qed.

(** Banner, then one call of any kind but the read, its answer dropped. *)
Lemma follows_announced (versions : list string) (msg : string) (c : syscall)
    (k : answer c -> py unit) :
  is_load c = false ->
  (forall x, k x = Return tt) ->
  follows_plan versions (_print_line msg ;; Call c k).
Proof.
  intros Hc Hk. apply follows_bind; [apply follows_print_line | intros _].
  intros e He h. cbn [exec].
  destruct c; try discriminate Hc; cbn [fake_executor];
    (destruct (e h _) as [x |]; rewrite ?Hk; cbn [exec];
     [reflexivity | eexists; reflexivity]).
Qed.

Lemma follows_load (versions : list string) :
  follows_plan versions (call (open_yaml_safe_load "python_versions.yaml")).
Proof.
  intros e He h. unfold call. cbn [exec].
  destruct (He h) as [H | H]; rewrite H; [reflexivity | eexists; reflexivity].
Qed.

Ltac follows_helper :=
  apply follows_announced; [reflexivity | intros x; destruct x; reflexivity].

Lemma follows_sudo_apt_install versions cmd : follows_plan versions (_sudo_apt_install cmd).
Proof.
  destruct cmd; unfold _sudo_apt_install, _preprocess_cmd_and_print; cbv beta iota zeta;
    follows_helper.
Qed.

Lemma follows_sudo_bash_cmd versions cmd : follows_plan versions (_sudo_bash_cmd cmd).
Proof. unfold _sudo_bash_cmd; follows_helper. Qed.

Lemma follows_clone_github_repo versions r : follows_plan versions (_clone_github_repo r).
Proof. unfold _clone_github_repo; follows_helper. Qed.

Lemma follows_move_file versions origin destination :
  follows_plan versions (_move_file origin destination).
Proof. unfold _move_file; follows_helper. Qed.

Lemma follows_delete_directory versions directory :
  follows_plan versions (_delete_directory directory).
Proof. unfold _delete_directory; follows_helper. Qed.

Lemma follows_delete_file versions file : follows_plan versions (_delete_file file).
Proof. unfold _delete_file; follows_helper. Qed.

Lemma follows_run_python versions cmd cwd : follows_plan versions (_run_python cmd cwd).
Proof.
  destruct cmd; unfold _run_python, _preprocess_cmd_and_print; cbv beta iota zeta;
    follows_helper.
Qed.

Lemma follows_execute_cmd versions cmd cwd : follows_plan versions (_execute_cmd cmd cwd).
Proof.
  destruct cmd; unfold _execute_cmd, _preprocess_cmd_and_print; cbv beta iota zeta;
    follows_helper.
Qed.

Lemma follows_when versions b p : follows_plan versions p -> follows_plan versions (when b p).
Proof. destruct b; [trivial | intros _; apply follows_return]. Qed.

Lemma follows_for_each {X : Type} versions (xs : list X) (body : X -> py unit) :
  (forall x, follows_plan versions (body x)) -> follows_plan versions (for_each xs body).
Proof.
  intro Hb. induction xs as [| x xs IH]; simpl.
  - apply follows_return.
  - apply follows_bind; [apply Hb | intros _; exact IH].
Qed.

Create HintDb follows discriminated.

#[local] Hint Resolve
  follows_return follows_load follows_sudo_apt_install follows_sudo_bash_cmd
  follows_clone_github_repo follows_move_file follows_delete_directory
  follows_delete_file follows_run_python follows_execute_cmd : follows.

Ltac follows_step :=
  match goal with
  | |- follows_plan _ (bind _ _) => apply follows_bind; [| intros ?]
  | |- follows_plan _ (when _ _) => apply follows_when
  | |- follows_plan _ (for_each _ _) => apply follows_for_each; intros ?
  | |- follows_plan _ _ => solve [auto with follows]
  end.

Lemma follows_main (versions : list string) (USER_NAME : string) (args : Args) :
  follows_plan versions (main USER_NAME args).
Proof. unfold main. repeat follows_step. Qed.

(** X3.  Whatever raises and wherever, the steps a run has made are an
    initial part of the plan: a failure ends the run on the spot, and the
    script neither skips the failed step, nor retries it, nor undoes what
    was done.  A run that returns has made the whole plan. *)
Theorem steps_are_initial_part_of_plan
    (e : executor) (versions : list string) (USER_NAME : string) (args : Args) :
  loads versions e ->
  (exists rest : list syscall,
     plan USER_NAME args versions
     = (steps (trace e (main USER_NAME args)) ++ rest)%list)
  /\ (forall z, result e (main USER_NAME args) = Returns z ->
      steps (trace e (main USER_NAME args)) = plan USER_NAME args versions).
Proof.
  intro He. pose proof (@follows_main versions USER_NAME args e He []) as H.
  unfold plan, trace, result.
  destruct (exec e [] (main USER_NAME args)) as [t [a |]]; simpl.
  - rewrite H. simpl. split.
    + exists []. symmetry. apply app_nil_r.
    + reflexivity.
  - destruct H as [rest Hrest]. rewrite Hrest. split.
    + exists (steps rest). apply filter_app.
    + discriminate.
Qed.

Lemma steps_are_initial_part_of_plan_witness :
  let e := raising_on is_os_remove (fake_executor 0 ["3.9"]) in
  loads ["3.9"] e
  /\ exists rest : list syscall,
       plan "siqube" (mkArgs false true false) ["3.9"]
       = (steps (trace e (main "siqube" (mkArgs false true false))) ++ rest)%list.
Proof.
  cbv zeta.
  assert (H : loads ["3.9"] (raising_on is_os_remove (fake_executor 0 ["3.9"])))
    by (intro h; left; reflexivity).
  split; [exact H |].
  exact (proj1 (steps_are_initial_part_of_plan "siqube" (mkArgs false true false) H)).
Defined.

(** ** The value [main] returns *)






(** ** A missing YAML file *)

Lemma only_load_raises_prints (e : executor) : only_load_raises e -> prints_return e.
Proof.
  intros He h text. specialize (He h (print text) eq_refl).
  destruct (e h (print text)) as [[] |]; [reflexivity | discriminate He].
Qed.

Lemma runs_announced (e : executor) (msg : string) (c : syscall) (k : answer c -> py unit) :
  only_load_raises e ->
  is_load c = false ->
  (forall x, k x = Return tt) ->
  runs e (_print_line msg ;; Call c k) (banner msg ++ [c])%list.
Proof.
  intros He Hc Hk h.
  rewrite (exec_announce h msg _ (only_load_raises_prints He)). cbn [exec].
  specialize (He (h ++ banner msg)%list c Hc).
  destruct (e (h ++ banner msg)%list c) as [x |]; [| discriminate He].
  rewrite Hk. reflexivity.
Qed.

Lemma runs_seq (e : executor) (p q : py unit) (t t' : list syscall) :
  runs e p t -> runs e q t' -> runs e (p ;; q) (t ++ t')%list.
Proof.
  intros Hp Hq h. rewrite exec_bind, Hp, Hq. reflexivity.
Qed.

Lemma runs_when (e : executor) (b : bool) (p : py unit) (t : list syscall) :
  runs e p t -> runs e (when b p) (optional b t).
Proof. intros Hp h. destruct b; [apply Hp | reflexivity]. Qed.

Lemma stops_seq {A : Type} (e : executor) (p : py unit) (q : py A) (t t' : list syscall) :
  runs e p t -> stops e q t' -> stops e (p ;; q) (t ++ t')%list.
Proof.
  intros Hp Hq h. rewrite exec_bind, Hp, Hq. reflexivity.
Qed.

Lemma stops_load {A : Type} (e : executor) (k : list string -> py A) :
  (forall h, e h (open_yaml_safe_load "python_versions.yaml") = Raises) ->
  stops e (vs <- call (open_yaml_safe_load "python_versions.yaml") ;; k vs)
    [open_yaml_safe_load "python_versions.yaml"].
Proof. intros He h. cbn [bind call exec]. rewrite He. reflexivity. Qed.

(** The helpers written out as banner and call. *)
Ltac unfold_helpers :=
  unfold _sudo_apt_install, _sudo_bash_cmd, _clone_github_repo, _move_file,
    _delete_directory, _delete_file, _run_python, _execute_cmd,
    _preprocess_cmd_and_print;
  cbv beta iota zeta.

Ltac runs_step :=
  match goal with
  | |- runs _ (bind (_print_line _) _) _ =>
      eapply runs_announced; [eassumption | reflexivity | intros x; destruct x; reflexivity]
  | |- runs _ (when _ _) _ => eapply runs_when
  | |- runs _ (bind _ _) _ => eapply runs_seq
  | |- stops _ (bind (call (open_yaml_safe_load _)) _) _ => eapply stops_load; eassumption
  | |- stops _ (bind _ _) _ => eapply stops_seq
  end.

(** X5.  The YAML file is opened only after the PPA is registered.  When
    opening it raises and nothing before did, the run has by then made
    every step of the plan up to and including the PPA registration; it
    stops there, with no interpreter installed and no guest additions. *)
Theorem missing_yaml_is_found_late (e : executor) (USER_NAME : string) (args : Args) :
  only_load_raises e ->
  (forall h, e h (open_yaml_safe_load "python_versions.yaml") = Raises) ->
  steps (trace e (main USER_NAME args))
    = (optional (clean_up args) (cleanup_block USER_NAME)
       ++ apt_update_block
       ++ git_identity_block
       ++ (vim_setup_block USER_NAME
           ++ optional (testing args) (vim_removal_block USER_NAME))
       ++ toolchain_block
       ++ (virtualenv_block USER_NAME
           ++ optional (testing args) (virtualenv_removal_block USER_NAME))
       ++ ppa_block)%list
  /\ result e (main USER_NAME args) = Raises.
Proof.
  intros He Hload.
  assert (H : exists T, stops e (main USER_NAME args) T
                        /\ steps T = (optional (clean_up args) (cleanup_block USER_NAME)
       ++ apt_update_block
       ++ git_identity_block
       ++ (vim_setup_block USER_NAME
           ++ optional (testing args) (vim_removal_block USER_NAME))
       ++ toolchain_block
       ++ (virtualenv_block USER_NAME
           ++ optional (testing args) (virtualenv_removal_block USER_NAME))
       ++ ppa_block)%list).
  { destruct args as [guest testing_ clean]. cbn [clean_up testing install_guest_edition].
    eexists. split.
    - unfold main. unfold_helpers. cbn [clean_up testing install_guest_edition].
      repeat runs_step.
    - destruct testing_, clean; reflexivity. }
  destruct H as (T & HT & Hsteps).
  unfold trace, result. rewrite (HT []). simpl fst. simpl snd.
  split; [exact Hsteps | reflexivity].
Qed.

Lemma missing_yaml_is_found_late_witness :
  let e := raising_on is_load (fake_executor 0 []) in
  only_load_raises e
  /\ result e (main "siqube" (mkArgs true false false)) = Raises.
Proof.
  cbv zeta.
  assert (H : only_load_raises (raising_on is_load (fake_executor 0 []))).
  { intros h c Hc. unfold raising_on. rewrite Hc. destruct c; try reflexivity.
    discriminate Hc. }
  split; [exact H |].
  exact (proj2 (missing_yaml_is_found_late "siqube" (mkArgs true false false) H
                  (fun h => eq_refl))).
Defined.

(** ** Clean-up on a machine that was never set up *)

Lemma exec_bind_raises {A B : Type} (e : executor) (h : list syscall)
    (p : py A) (f : A -> py B) :
  snd (exec e h p) = Raises -> exec e h (bind p f) = (fst (exec e h p), Raises).
Proof.
  intro Hp. rewrite exec_bind.
  destruct (exec e h p) as [t r]. simpl in Hp. subst r. reflexivity.
Qed.

Lemma delete_file_raises (e : executor) (file : string) :
  (forall h, e h (os_remove file) = Raises) ->
  forall h,
    snd (exec e h (_delete_file file)) = Raises
    /\ forall c, In c (fst (exec e h (_delete_file file))) ->
                 is_print c = true \/ c = os_remove file.
Proof.
  intros He h. unfold _delete_file, _print_line. cbn [bind call exec].
  repeat match goal with
         | |- context [e ?h' (print ?text)] =>
             destruct (e h' (print text)) as [[] |]; cbn [exec fst snd]
         end;
    rewrite ?He; cbn [fst snd]; (split; [reflexivity |]);
    intros c Hc; cbn [In] in Hc; intuition (subst; auto).
Qed.

(** X6.  With [clean_up] set, the first thing the run does is delete
    [~/.vimrc_cl_install].  When that deletion raises, as it does on a
    machine the script never set up, the run ends there: it raises, and
    apart from printing it has made no call but the failed deletion, so
    nothing is updated or installed. *)
Theorem clean_up_needs_earlier_install (e : executor) (USER_NAME : string) (args : Args) :
  clean_up args = true ->
  (forall h, e h (os_remove (USER_HOME USER_NAME ++ "/.vimrc_cl_install")) = Raises) ->
  result e (main USER_NAME args) = Raises
  /\ forall c, In c (trace e (main USER_NAME args)) ->
       is_print c = true \/ c = os_remove (USER_HOME USER_NAME ++ "/.vimrc_cl_install").
Proof.
  intros Hclean He.
  destruct (delete_file_raises _ He []) as [Hraise Hcalls].
  assert (Hexec : exec e [] (main USER_NAME args)
                  = (fst (exec e [] (_delete_file
                                       (USER_HOME USER_NAME ++ "/.vimrc_cl_install"))),
                     Raises)).
  { unfold main. rewrite Hclean. unfold when at 1.
    rewrite exec_bind_raises.
    - rewrite exec_bind_raises by exact Hraise. reflexivity.
    - rewrite exec_bind_raises by exact Hraise. reflexivity. }
  unfold result, trace. rewrite Hexec.
  split; [reflexivity | exact Hcalls].
Qed.

Lemma clean_up_needs_earlier_install_witness :
  let e := raising_on is_os_remove (fake_executor 0 ["3.9"]) in
  result e (main "siqube" (mkArgs false false true)) = Raises.
Proof.
  cbv zeta.
  exact (proj1 (@clean_up_needs_earlier_install
                  (raising_on is_os_remove (fake_executor 0 ["3.9"]))
                  "siqube" (mkArgs false false true) eq_refl (fun h => eq_refl))).
Defined.

(** ** Banners and steps *)










(** ** Strings and tuples as commands *)

(** X8.  A command given as one string is never split: it is run as a
    single argument, spaces included.  So the words of a tuple joined by
    spaces and the tuple itself print the same banner, but run different
    commands unless the tuple has exactly one element. *)
Theorem string_command_is_not_split (t : list string) :
  length t <> 1 ->
  snd (_preprocess_cmd_and_print (CmdStr (PyStr.join " " t)))
    = snd (_preprocess_cmd_and_print (CmdTuple t))
  /\ fst (_preprocess_cmd_and_print (CmdStr (PyStr.join " " t)))
     <> fst (_preprocess_cmd_and_print (CmdTuple t))
  /\ length (fst (_preprocess_cmd_and_print (CmdStr (PyStr.join " " t)))) = 1.
Proof.
  intro Hlen. simpl. repeat split.
  intro H. apply Hlen. rewrite <- H. reflexivity.
Qed.

Lemma string_command_is_not_split_witness :
  fst (_preprocess_cmd_and_print (CmdStr "sudo rm /bin/virtualenv"))
  <> fst (_preprocess_cmd_and_print (CmdTuple ["sudo"; "rm"; "/bin/virtualenv"])).
Proof.
  apply (string_command_is_not_split ["sudo"; "rm"; "/bin/virtualenv"]).
  simpl. discriminate.
Defined.

(** ** Working directories *)

Lemma interpreter_installs_have_no_cwd (versions : list string) :
  filter has_cwd (map interpreter_install versions) = [].
Proof.
  induction versions as [| v versions IH]; simpl; [reflexivity | exact IH].
Qed.

(** X9.  Whatever the flags and the versions, exactly two steps of the
    plan run in a working directory of their own, both in the
    YouCompleteMe checkout: the submodule update and [install.py].
    Every other process, clone and installer included, runs in the
    directory the script was started from. *)
Theorem only_youcompleteme_steps_have_cwd
    (USER_NAME : string) (args : Args) (versions : list string) :
  filter has_cwd (plan USER_NAME args versions)
  = [ subprocess_run ["git"; "submodule"; "update"; "--init"; "--recursive"]
        (Some (USER_HOME USER_NAME ++ "/.vim/bundle/YouCompleteMe"));
      subprocess_run ["python3"; "install.py"; "--all"]
        (Some (USER_HOME USER_NAME ++ "/.vim/bundle/YouCompleteMe")) ].
Proof.
  rewrite plan_blocks, !filter_app, interpreter_installs_have_no_cwd.
  destruct args as [[] [] []]; reflexivity.
Qed.

(** ** The banner of a deletion *)

Lemma repr_char_plain (c : ascii) :
  plain_char c = true -> PyStr.repr_char PyStr.squote c = String c EmptyString.
Proof.
  unfold plain_char, PyStr.repr_char. cbv zeta. intro H.
  apply andb_true_iff in H. destruct H as [H Hb].
  apply andb_true_iff in H. destruct H as [H Hq].
  apply andb_true_iff in H. destruct H as [Hlo Hhi].
  apply negb_true_iff in Hb. apply negb_true_iff in Hq.
  apply Nat.leb_le in Hlo. apply Nat.ltb_lt in Hhi.
  rewrite Hq, Hb. simpl orb.
  destruct (Nat.eqb_spec (nat_of_ascii c) 9); [lia |].
  destruct (Nat.eqb_spec (nat_of_ascii c) 10); [lia |].
  destruct (Nat.eqb_spec (nat_of_ascii c) 13); [lia |].
  destruct (Nat.ltb_spec (nat_of_ascii c) 32); [lia |].
  destruct (Nat.eqb_spec (nat_of_ascii c) 127); [lia |].
  reflexivity.
Qed.

Lemma repr_body_plain (s : string) :
  plain s = true -> PyStr.repr_body PyStr.squote s = s.
Proof.
  induction s as [| c s IH]; simpl; intro H.
  - reflexivity.
  - apply andb_true_iff in H. destruct H as [Hc Hs].
    rewrite (repr_char_plain c Hc), (IH Hs). reflexivity.
Qed.

Lemma plain_has_no_squote (s : string) :
  plain s = true -> PyStr.contains PyStr.squote s = false.
Proof.
  induction s as [| c s IH]; cbn [plain PyStr.contains]; intro H.
  - reflexivity.
  - apply andb_true_iff in H. destruct H as [Hc Hs].
    rewrite (IH Hs), orb_false_r.
    unfold plain_char in Hc. cbv zeta in Hc.
    apply andb_true_iff in Hc. destruct Hc as [Hc _].
    apply andb_true_iff in Hc. destruct Hc as [_ Hq].
    apply negb_true_iff in Hq.
    rewrite Ascii.eqb_sym. exact Hq.
Qed.

Lemma repr_plain_path (s : string) :
  plain s = true ->
  PyStr.repr s = String PyStr.squote (s ++ String PyStr.squote EmptyString).
Proof.
  intro H. unfold PyStr.repr.
  rewrite (plain_has_no_squote s H). cbn [andb].
  rewrite (repr_body_plain s H). reflexivity.
Qed.

(** X10.  The deletion helpers announce their argument the way the [=]
    specifier of an f-string shows it: for a path of printable ASCII
    characters without single quote or backslash the banner reads
    [deleting file='<path>'] or [deleting directory='<path>'], the path
    between single quotes, and the deletion is of the path itself. *)
Theorem deletion_banner_quotes_path (status : Z) (versions : list string) (path : string) :
  plain path = true ->
  trace (fake_executor status versions) (_delete_file path)
    = (banner ("deleting file='" ++ path ++ "'") ++ [os_remove path])%list
  /\ trace (fake_executor status versions) (_delete_directory path)
    = (banner ("deleting directory='" ++ path ++ "'") ++ [shutil_rmtree path])%list.
Proof.
  intro H. unfold trace, _delete_file, _delete_directory.
  rewrite (repr_plain_path path H).
  split; reflexivity.
Qed.

Lemma deletion_banner_quotes_path_witness :
  trace (fake_executor 0 []) (_delete_file "/tmp/virtualenv.pyz")
  = (banner "deleting file='/tmp/virtualenv.pyz'" ++ [os_remove "/tmp/virtualenv.pyz"])%list.
Proof.
  exact (proj1 (deletion_banner_quotes_path 0 [] "/tmp/virtualenv.pyz" eq_refl)).
Defined.
